(** * URL to PDF agent: a shallow embedding of [url_to_pdf_agent.py]

    The agent reads URLs from text files, derives a file name from each URL
    and renders the page to PDF with wkhtmltopdf, falling back to a Chrome
    session driven through Selenium. *)

From Stdlib Require Import String Ascii List NArith Lia Bool.
From stdpp Require Import base option list gmap.

Local Open Scope N_scope.

(** ** Python strings

    A Python [str] is a sequence of Unicode code points. A literal of the
    source is written [lit "..."]; every literal of the source is ASCII. *)

Definition pystr := list N.

Definition lit (s : string) : pystr := map N_of_ascii (list_ascii_of_string s).

Module Str.

(** [s.startswith(p)] *)
Fixpoint startswith (s p : pystr) {struct p} : bool :=
  match p, s with
  | [], _ => true
  | _ :: _, [] => false
  | a :: p', b :: s' => (a =? b) && startswith s' p'
  end.

(** [s.replace(old, new)] for a non-empty [old], as every call of the
    source has it: the occurrences of [old] are found from left to right
    and do not overlap; the scan resumes after each one, so the text that
    a replacement brings together is not scanned again. [skip] counts the
    characters of the occurrence being replaced that are still to be
    passed over. *)
Fixpoint replace_from (old new : pystr) (skip : nat) (s : pystr) : pystr :=
  match s with
  | [] => []
  | c :: t =>
      match skip with
      | S k => replace_from old new k t
      | O =>
          if startswith s old
          then new ++ replace_from old new (Nat.pred (length old)) t
          else c :: replace_from old new 0 t
      end
  end.

Definition replace (s old new : pystr) : pystr := replace_from old new 0 s.

(** [c.isspace()], the characters [s.strip()] removes: the ASCII white
    space of CPython (tab to carriage return, the four separators
    [0x1c]-[0x1f], space) and the Unicode white space beyond it. *)
Definition isspace (c : N) : bool :=
  ((0x09 <=? c) && (c <=? 0x0d)) || ((0x1c <=? c) && (c <=? 0x20))
  || (c =? 0x85) || (c =? 0xa0) || (c =? 0x1680)
  || ((0x2000 <=? c) && (c <=? 0x200a))
  || (c =? 0x2028) || (c =? 0x2029) || (c =? 0x202f) || (c =? 0x205f)
  || (c =? 0x3000).

Fixpoint lstrip (s : pystr) : pystr :=
  match s with
  | c :: t => if isspace c then lstrip t else s
  | [] => []
  end.

Definition rstrip (s : pystr) : pystr := rev (lstrip (rev s)).

(** [s.strip()] *)
Definition strip (s : pystr) : pystr := rstrip (lstrip s).

(** [s.endswith(p)] *)
Definition endswith (s p : pystr) : bool := startswith (rev s) (rev p).

(** the truth value of [s] *)
Definition truthy (s : pystr) : bool :=
  match s with [] => false | _ :: _ => true end.

(** [c in chars] for a one-character [c] *)
Definition char_in (c : N) (chars : pystr) : bool := existsb (N.eqb c) chars.

(** [s[:n]] *)
Definition slice_to (n : nat) (s : pystr) : pystr := take n s.

Definition ascii_isalnum (c : N) : bool :=
  ((0x30 <=? c) && (c <=? 0x39)) || ((0x41 <=? c) && (c <=? 0x5a))
  || ((0x61 <=? c) && (c <=? 0x7a)).

End Str.

(** ** Paths and the file system

    A path is the list of its components below the working directory, which
    is the empty path. The agent looks at the file system for the kind of a
    path only, and changes it by creating directories and files. Permissions
    are not modelled. *)

Definition path := list pystr.

Inductive node := Dir | File.

Abbreviation filesystem := (gmap path node).

Definition parent (p : path) : path := removelast p.

Definition kind (fs : filesystem) (p : path) : option node :=
  match p with
  | [] => Some Dir
  | _ :: _ => fs !! p
  end.

(** [Path.is_file], [Path.is_dir] *)
Definition is_file (fs : filesystem) (p : path) : bool :=
  match kind fs p with Some File => true | _ => false end.

Definition is_dir (fs : filesystem) (p : path) : bool :=
  match kind fs p with Some Dir => true | _ => false end.

(** ** Exceptions, log records and events *)

(** The instances of [Exception] the program meets: these are what
    [except Exception] catches. [SystemExit], which it does not catch, is a
    result of its own below; asynchronous interrupts are not modelled. *)
Inductive exception :=
| FileNotFoundError (p : path)
| FileExistsError (p : path)
| IsADirectoryError (p : path)
| NotADirectoryError (p : path)
| NameError (name : string)
| KeyError (key : string)
| Raised (what : string).   (* raised by a collaborator: a timeout, a decoding error, ... *)

Inductive level := INFO | WARNING | ERROR.

(** The messages of the source, each with the values its f-string formats. *)
Inductive message :=
| InvalidURL (line_num : nat) (line : pystr)        (* Invalid URL at line {line_num}: {line} *)
| ReadCount (n : nat) (file_path : path)            (* Read {len(urls)} URLs from {file_path} *)
| ReadError (file_path : path) (e : exception)      (* Error reading file {file_path}: {e} *)
| PdfCreated (output_path : path)                   (* PDF created successfully: {output_path} *)
| WkhtmltopdfError (url : pystr) (e : exception)    (* Error creating PDF with wkhtmltopdf for {url}: {e} *)
| SeleniumPdfCreated (output_path : path)           (* PDF created successfully with Selenium: {output_path} *)
| SeleniumError (url : pystr) (e : exception)       (* Error creating PDF with Selenium for {url}: {e} *)
| ProcessingURL (url : pystr)                       (* Processing URL: {url} *)
| FallingBack (url : pystr)                         (* Falling back to Selenium for {url} *)
| NoValidURLs (file_path : path)                    (* No valid URLs found in {file_path} *)
| Summary (success_count total : nat) (file_path : path)
                                                    (* Processed {success_count}/{len(urls)} URLs successfully from {file_path} *)
| NoTxtFiles (directory_path : path)                (* No .txt files found in {directory_path} *)
| ProcessingFile (txt_file : path)                  (* Processing file: {txt_file} *)
| NotValidInput (input : path).                     (* Error: {args.input} is not a valid file or directory *)

Inductive optval := OStr (s : string) | OInt (n : N) | OBool (b : bool) | ONone.

(** What the program does to the outside, in the order it does it; a call of
    a collaborator is recorded with its outcome, [None] for a normal return. *)
Inductive event :=
| Log (lv : level) (m : message)
| Stdout (m : message)
| FromUrl (url : pystr) (output_path : path) (options : list (string * optval))
          (r : option exception)
| Chrome (arguments : list string) (r : option exception)
| Get (url : pystr) (r : option exception)
| WaitBody (timeout : N) (r : option exception)
| PrintToPDF (options : list (string * optval)) (r : exception + option pystr)
| WriteBytes (p : path) (data : list N)
| DriverQuit (r : option exception).

(** What reading a file opened in text mode gives: [open] raises, or the
    iteration yields lines and then ends or raises. *)
Inductive text_stream :=
| OpenFails (e : exception)
| Lines (ls : list pystr) (fault : option exception).

(** The collaborators. Each answer may depend on all that happened before. *)
Record World := {
  read_text : list event -> path -> text_stream;
  from_url : list event -> pystr -> path -> option exception;
  webdriver_Chrome : list event -> list string -> option exception;
  driver_get : list event -> pystr -> option exception;
  wait_until_body : list event -> option exception;
  (* the ['data'] entry of the dictionary [Page.printToPDF] returns, if any *)
  execute_cdp_cmd : list event -> exception + option pystr;
  driver_quit : list event -> option exception;
  b64decode : pystr -> exception + list N
}.

Record State := { fs : filesystem; trace : list event }.

(** ** The monad of the program: state, exceptions and [sys.exit] *)

Inductive result (A : Type) :=
| Ok (a : A)
| Raise (e : exception)
| Exit (code : N).
Arguments Ok {A} a.
Arguments Raise {A} e.
Arguments Exit {A} code.

Definition M (A : Type) : Type := State -> result A * State.

Definition ret {A} (a : A) : M A := fun s => (Ok a, s).

Definition bind {A B} (m : M A) (k : A -> M B) : M B :=
  fun s =>
    match m s with
    | (Ok a, s') => k a s'
    | (Raise e, s') => (Raise e, s')
    | (Exit c, s') => (Exit c, s')
    end.

Notation "x <- m ;; k" := (bind m (fun x => k))
  (at level 100, m at next level, right associativity).
Notation "m ;; k" := (bind m (fun _ => k))
  (at level 100, right associativity).

Definition raise {A} (e : exception) : M A := fun s => (Raise e, s).

(** [sys.exit(code)] *)
Definition sys_exit {A} (code : N) : M A := fun s => (Exit code, s).

(** [try: body except Exception as e: handler] *)
Definition try_except {A} (body : M A) (handler : exception -> M A) : M A :=
  fun s =>
    match body s with
    | (Raise e, s') => handler e s'
    | r => r
    end.

(** [try: body finally: final]: [final] runs however [body] ends, and what it
    raises replaces the outcome of [body]. *)
Definition try_finally {A} (body : M A) (final : M unit) : M A :=
  fun s =>
    let (r, s') := body s in
    match final s' with
    | (Ok _, s'') => (r, s'')
    | (Raise e, s'') => (Raise e, s'')
    | (Exit c, s'') => (Exit c, s'')
    end.

Definition emit (e : event) : M unit :=
  fun s => (Ok tt, {| fs := fs s; trace := trace s ++ [e] |}).

Definition log (lv : level) (m : message) : M unit := emit (Log lv m).

(** A call of a collaborator that returns nothing. *)
Definition call (answer : list event -> option exception)
    (record : option exception -> event) : M unit :=
  fun s =>
    let r := answer (trace s) in
    match r with
    | None => emit (record r) s
    | Some e => (emit (record r) ;; raise e) s
    end.

Definition get_fs : M filesystem := fun s => (Ok (fs s), s).

Definition create (p : path) (n : node) : M unit :=
  fun s => (Ok tt, {| fs := <[p := n]> (fs s); trace := trace s |}).

(** The events [m] adds when run from [s]. *)
Definition events_of {A} (m : M A) (s : State) : list event :=
  drop (length (trace s)) (trace (snd (m s))).

(** The exit status of the process when [main] ends with [r]: an exception
    that nothing catches ends the interpreter with status 1. *)
Definition exit_status {A} (r : result A) : N :=
  match r with
  | Ok _ => 0
  | Raise _ => 1
  | Exit c => c
  end.

(** ** The module *)

(** The names the module binds: its imports (lines 7-19) and its two
    definitions. None of them, and no builtin, is [base64]. *)
Definition module_globals : list string :=
  ["os"; "sys"; "logging"; "argparse"; "Path"; "List"; "Optional"; "requests";
   "webdriver"; "Options"; "By"; "WebDriverWait"; "EC"; "pdfkit";
   "URLToPDFAgent"; "main"]%string.

(** Reading a global name that is not bound raises [NameError]. *)
Definition load_global (name : string) : M unit :=
  if existsb (String.eqb name) module_globals then ret tt
  else raise (NameError name).

Record URLToPDFAgent := { output_dir : path; headless : bool }.

Record Args := { input : path; output : path; no_headless : bool }.

Section Agent.

(** [str.isalnum] reads the Unicode character database of the interpreter,
    which is no part of the repository: on ASCII it holds of the digits and
    the letters, beyond ASCII the table is a parameter. *)
Variable unicode_isalnum : N -> bool.

Definition isalnum (c : N) : bool :=
  if c <? 0x80 then Str.ascii_isalnum c else unicode_isalnum c.

(** *** [URLToPDFAgent.sanitize_filename] *)

(** Line 59: [url.replace('https://', '').replace('http://', '')] *)
Definition strip_scheme (url : pystr) : pystr :=
  Str.replace (Str.replace url (lit "https://") []) (lit "http://") [].

(** Line 60 *)
Definition replace_separators (filename : pystr) : pystr :=
  Str.replace (Str.replace (Str.replace filename (lit "/") (lit "_"))
                 (lit "?") (lit "_")) (lit "&") (lit "_").

(** Line 61: the test of the generator expression *)
Definition keep_char (c : N) : bool := isalnum c || Str.char_in c (lit "._-").

Definition sanitize_filename (url : pystr) : pystr :=
  let filename := strip_scheme url in
  let filename := replace_separators filename in
  let filename := List.filter keep_char filename in
  Str.slice_to 100 filename ++ lit ".pdf".

Variable w : World.

(** *** The file system calls *)

(** Why [p] cannot be created, if it cannot: its parent is no directory. *)
Definition parent_missing (fs0 : filesystem) (p : path) : option exception :=
  match kind fs0 (parent p) with
  | Some Dir => None
  | Some File => Some (NotADirectoryError p)
  | None => Some (FileNotFoundError p)
  end.

(** [Path.mkdir(exist_ok=True)], without [parents=True]: an existing
    directory is left as it is, an existing file is an error, and so is a
    missing parent. *)
Definition mkdir_exist_ok (p : path) : M unit :=
  fs0 <- get_fs ;;
  match kind fs0 p with
  | Some Dir => ret tt
  | Some File => raise (FileExistsError p)
  | None =>
      match parent_missing fs0 p with
      | Some e => raise e
      | None => create p Dir
      end
  end.

(** [open(p, 'wb')] and the [open(p, 'a')] of [logging.FileHandler]: the
    file is created when it is missing. Closing it has no effect here. *)
Definition open_for_writing (p : path) : M unit :=
  fs0 <- get_fs ;;
  match kind fs0 p with
  | Some Dir => raise (IsADirectoryError p)
  | Some File => ret tt
  | None =>
      match parent_missing fs0 p with
      | Some e => raise e
      | None => create p File
      end
  end.

(** [open(file_path, 'r', encoding='utf-8')] and the iteration over it:
    what the file gives in state [s]. *)
Definition opened (s : State) (file_path : path) : text_stream :=
  match kind (fs s) file_path with
  | None => OpenFails (FileNotFoundError file_path)
  | Some Dir => OpenFails (IsADirectoryError file_path)
  | Some File => read_text w (trace s) file_path
  end.

Definition open_text (file_path : path) : M text_stream :=
  fun s => (Ok (opened s file_path), s).

(** [directory.glob("*.txt")]: the children of [directory] whose name ends
    in [.txt], in the order the map lists them. *)
Definition glob_txt (fs0 : filesystem) (directory : path) : list path :=
  List.filter
    (fun p => bool_decide (p <> [] /\ parent p = directory)
              && Str.endswith (List.last p []) (lit ".txt"))
    (map fst (map_to_list fs0)).

(** *** [URLToPDFAgent.__init__] and [setup_logging] *)

Definition log_file : path := [lit "url_to_pdf_agent.log"].

(** The [FileHandler] opens the log file when it is made. *)
Definition setup_logging : M unit := open_for_writing log_file.

Definition URLToPDFAgent_init (output_dir : path) (headless : bool)
    : M URLToPDFAgent :=
  mkdir_exist_ok output_dir ;;
  setup_logging ;;
  ret {| output_dir := output_dir; headless := headless |}.

(** *** [URLToPDFAgent.read_urls_from_file] *)

(** The loop of lines 45-51. [urls] is the list the loop appends to. *)
Fixpoint read_lines (ls : list pystr) (line_num : nat) (urls : list pystr)
    : M (list pystr) :=
  match ls with
  | [] => ret urls
  | line :: rest =>
      let line := Str.strip line in
      if Str.truthy line && negb (Str.startswith line (lit "#")) then
        if Str.startswith line (lit "http://")
           || Str.startswith line (lit "https://")
        then read_lines rest (S line_num) (urls ++ [line])
        else log WARNING (InvalidURL line_num line) ;;
             read_lines rest (S line_num) urls
      else read_lines rest (S line_num) urls
  end.

(** [urls] is bound before the [try] and returned after it: what the loop
    appended before the iteration raised is still in it. *)
Definition read_urls_from_file (file_path : path) : M (list pystr) :=
  let urls := [] in
  f <- open_text file_path ;;
  match f with
  | OpenFails e =>
      log ERROR (ReadError file_path e) ;;
      ret urls
  | Lines ls fault =>
      urls <- read_lines ls 1 urls ;;
      match fault with
      | Some e =>
          log ERROR (ReadError file_path e) ;;
          ret urls
      | None =>
          log INFO (ReadCount (length urls) file_path) ;;
          ret urls
      end
  end.

(** *** [URLToPDFAgent.create_pdf_with_wkhtmltopdf] *)

Definition wkhtmltopdf_options : list (string * optval) :=
  [("page-size", OStr "A4");
   ("margin-top", OStr "0.75in");
   ("margin-right", OStr "0.75in");
   ("margin-bottom", OStr "0.75in");
   ("margin-left", OStr "0.75in");
   ("encoding", OStr "UTF-8");
   ("no-outline", ONone);
   ("enable-local-file-access", ONone);
   ("javascript-delay", OInt 2000);
   ("load-error-handling", OStr "ignore");
   ("load-media-error-handling", OStr "ignore")]%string.

Definition create_pdf_with_wkhtmltopdf (url : pystr) (output_path : path)
    : M bool :=
  try_except
    (let options := wkhtmltopdf_options in
     call (fun h => from_url w h url output_path)
          (FromUrl url output_path options) ;;
     log INFO (PdfCreated output_path) ;;
     ret true)
    (fun e =>
       log ERROR (WkhtmltopdfError url e) ;;
       ret false).

(** *** [URLToPDFAgent.create_pdf_with_selenium] *)

Definition chrome_arguments (self : URLToPDFAgent) : list string :=
  (if headless self then ["--headless"]%string else [])
  ++ ["--no-sandbox"; "--disable-dev-shm-usage"; "--disable-gpu";
      "--window-size=1920,1080"]%string.

Definition print_options : list (string * optval) :=
  [("landscape", OBool false);
   ("displayHeaderFooter", OBool false);
   ("printBackground", OBool true);
   ("preferCSSPageSize", OBool true)]%string.

(** [driver.execute_cdp_cmd("Page.printToPDF", print_options)] *)
Definition page_printToPDF : M (option pystr) :=
  fun s =>
    let r := execute_cdp_cmd w (trace s) in
    match r with
    | inr pdf_data => (emit (PrintToPDF print_options r) ;; ret pdf_data) s
    | inl e => (emit (PrintToPDF print_options r) ;; raise e) s
    end.

(** [pdf_data['data']] *)
Definition getitem_data (pdf_data : option pystr) : M pystr :=
  match pdf_data with
  | Some data => ret data
  | None => raise (KeyError "data")
  end.

Definition base64_b64decode (data : pystr) : M (list N) :=
  match b64decode w data with
  | inr bytes => ret bytes
  | inl e => raise e
  end.

(** Line 118, [f.write(base64.b64decode(pdf_data['data']))], evaluates the
    name [base64] before the subscript and the two calls. *)
Definition create_pdf_with_selenium (self : URLToPDFAgent) (url : pystr)
    (output_path : path) : M bool :=
  try_except
    (let chrome_options := chrome_arguments self in
     call (fun h => webdriver_Chrome w h chrome_options) (Chrome chrome_options) ;;
     try_finally
       (call (fun h => driver_get w h url) (Get url) ;;
        call (wait_until_body w) (WaitBody 10) ;;
        pdf_data <- page_printToPDF ;;
        open_for_writing output_path ;;
        load_global "base64" ;;
        data <- getitem_data pdf_data ;;
        bytes <- base64_b64decode data ;;
        emit (WriteBytes output_path bytes) ;;
        log INFO (SeleniumPdfCreated output_path) ;;
        ret true)
       (call (driver_quit w) DriverQuit))
    (fun e =>
       log ERROR (SeleniumError url e) ;;
       ret false).

(** *** [URLToPDFAgent.process_url] *)

Definition process_url (self : URLToPDFAgent) (url : pystr) : M bool :=
  let filename := sanitize_filename url in
  let output_path := output_dir self ++ [filename] in
  log INFO (ProcessingURL url) ;;
  ok <- create_pdf_with_wkhtmltopdf url output_path ;;
  if ok then ret true
  else
    log INFO (FallingBack url) ;;
    create_pdf_with_selenium self url output_path.

(** *** [URLToPDFAgent.process_file] *)

(** The loop of lines 153-155. *)
Fixpoint process_urls (self : URLToPDFAgent) (urls : list pystr)
    (success_count : nat) : M nat :=
  match urls with
  | [] => ret success_count
  | url :: rest =>
      ok <- process_url self url ;;
      process_urls self rest (if ok then S success_count else success_count)
  end.

Definition process_file (self : URLToPDFAgent) (file_path : path) : M unit :=
  urls <- read_urls_from_file file_path ;;
  match urls with
  | [] => log WARNING (NoValidURLs file_path)
  | _ :: _ =>
      success_count <- process_urls self urls 0 ;;
      log INFO (Summary success_count (length urls) file_path)
  end.

(** *** [URLToPDFAgent.process_directory] *)

Fixpoint process_files (self : URLToPDFAgent) (txt_files : list path)
    : M unit :=
  match txt_files with
  | [] => ret tt
  | txt_file :: rest =>
      log INFO (ProcessingFile txt_file) ;;
      process_file self txt_file ;;
      process_files self rest
  end.

Definition process_directory (self : URLToPDFAgent) (directory_path : path)
    : M unit :=
  fs0 <- get_fs ;;
  let txt_files := glob_txt fs0 directory_path in
  match txt_files with
  | [] => log WARNING (NoTxtFiles directory_path)
  | _ :: _ => process_files self txt_files
  end.

(** *** [main], from the parsed arguments on (line 181) *)

Definition main (args : Args) : M unit :=
  agent <- URLToPDFAgent_init (output args) (negb (no_headless args)) ;;
  let input_path := input args in
  fs0 <- get_fs ;;
  if is_file fs0 input_path then process_file agent input_path
  else if is_dir fs0 input_path then process_directory agent input_path
  else
    emit (Stdout (NotValidInput input_path)) ;;
    sys_exit 1.

End Agent.

(** ** The notions the properties are stated with *)

(** The first step as the specification words it: a leading scheme is
    stripped, once, and nothing else is touched. *)
Definition spec_strip_scheme (url : pystr) : pystr :=
  if Str.startswith url (lit "https://") then drop 8 url
  else if Str.startswith url (lit "http://") then drop 7 url
  else url.

(** [erased old s r]: [r] is [s] with its occurrences of [old] deleted, the
    occurrences being taken from left to right without overlap. *)
Inductive erased (old : pystr) : pystr -> pystr -> Prop :=
| erased_none s :
    (forall i, ~ old `prefix_of` drop i s) ->
    erased old s s
| erased_first a b r :
    (forall i, (i < length a)%nat -> ~ old `prefix_of` drop i (a ++ old ++ b)) ->
    erased old b r ->
    erased old (a ++ old ++ b) (a ++ r).

(** The collector as the specification words it. A line is trimmed; a blank
    line or a comment is skipped, a line that starts with a scheme is
    accepted, any other line is rejected. *)
Inductive line_class :=
| Skipped
| Accepted (url : pystr)
| Rejected (text : pystr).

Definition spec_classify (line : pystr) : line_class :=
  let text := Str.strip line in
  if bool_decide (text = []) then Skipped
  else if Str.startswith text (lit "#") then Skipped
  else if Str.startswith text (lit "http://") then Accepted text
  else if Str.startswith text (lit "https://") then Accepted text
  else Rejected text.

(** The accepted URLs, in the order of their lines, repetitions included. *)
Definition spec_accepted_urls (ls : list pystr) : list pystr :=
  omap (fun line => match spec_classify line with Accepted url => Some url | _ => None end) ls.

(** The warning for the line at index [i], counted from [first]. *)
Definition spec_rejection (first i : nat) (line : pystr) : option event :=
  match spec_classify line with
  | Rejected text => Some (Log WARNING (InvalidURL (first + i) text))
  | _ => None
  end.

(** One warning for each rejected line, with its line number counted from 1. *)
Definition spec_rejected_warnings (ls : list pystr) : list event :=
  omap id (imap (spec_rejection 1) ls).

(** [s] with the events [evs] added to its trace. *)
Definition logged (s : State) (evs : list event) : State :=
  {| fs := fs s; trace := trace s ++ evs |}.

(** [released evs]: in [evs], every successful launch of the browser is
    followed by a call of [driver.quit]. *)
Definition released (evs : list event) : Prop :=
  forall pre post arguments,
    evs = pre ++ Chrome arguments None :: post -> exists r, In (DriverQuit r) post.

(** The fallback renderer begins by launching the browser: its calls are
    counted by the launches. *)
Definition is_fallback_call (e : event) : bool :=
  match e with Chrome _ _ => true | _ => false end.

Definition fallback_calls (evs : list event) : nat :=
  length (List.filter is_fallback_call evs).

Definition is_log (e : event) : Prop := exists lv m, e = Log lv m.

(** The renderer calls among the events. *)
Definition is_render_call (e : event) : bool :=
  match e with
  | FromUrl _ _ _ _ | Chrome _ _ => true
  | _ => false
  end.

(** ** Scenarios *)

(** A character table with nothing alphanumeric beyond ASCII, for runs whose
    strings are ASCII. *)
Definition ascii_table : N -> bool := fun _ => false.

(** A world in which the browser does all it is asked: the list file reads as
    [stream], the primary renderer ends as [primary] says, and the export
    step returns a payload. *)
Definition obliging (stream : text_stream) (primary : option exception) : World :=
  {| read_text := fun _ _ => stream;
     from_url := fun _ _ _ => primary;
     webdriver_Chrome := fun _ _ => None;
     driver_get := fun _ _ => None;
     wait_until_body := fun _ => None;
     execute_cdp_cmd := fun _ => inr (Some (lit "JVBERi0="));
     driver_quit := fun _ => None;
     b64decode := fun _ => inr [0x25; 0x50; 0x44; 0x46; 0x2d] |}.

Definition newline : pystr := [0x0a].

Definition urls_txt : path := [lit "urls.txt"].
Definition pdf_output : path := [lit "pdf_output"].

(** A working directory that holds [urls.txt], and one that holds the output
    directory too. *)
Definition fresh : State :=
  {| fs := {[ urls_txt := File ]}; trace := [] |}.

Definition prepared : State :=
  {| fs := <[pdf_output := Dir]> {[ urls_txt := File ]}; trace := [] |}.

Definition agent : URLToPDFAgent := {| output_dir := pdf_output; headless := true |}.

Definition example_com : pystr := lit "https://example.com".

Definition failed : option exception := Some (Raised "wkhtmltopdf").

(** The list file of the specification's scenario. *)
Definition scenario_lines : list pystr :=
  [lit "https://example.com" ++ newline;
   lit "not-a-url" ++ newline;
   lit "# comment" ++ newline;
   newline].

(** A list file whose second chunk cannot be decoded. *)
Definition broken_stream : text_stream :=
  Lines [lit "https://example.com" ++ newline] (Some (Raised "UnicodeDecodeError")).

Definition example_com_pdf : path := pdf_output ++ [lit "example.com.pdf"].

(** A list file with nothing to accept. *)
Definition idle_lines : list pystr :=
  [lit "# comment" ++ newline; newline; lit "not-a-url" ++ newline].

(** Command lines: the list file with the default output directory, and with
    an output directory below a directory that does not exist. *)
Definition usual_args : Args :=
  {| input := urls_txt; output := pdf_output; no_headless := false |}.

Definition nested_args : Args :=
  {| input := urls_txt; output := [lit "out"; lit "pdfs"]; no_headless := false |}.

Definition missing_args : Args :=
  {| input := [lit "nowhere"]; output := pdf_output; no_headless := false |}.

(** ** Readings of a trace and of a file system *)

Definition is_primary_call (e : event) : bool :=
  match e with FromUrl _ _ _ _ => true | _ => false end.

(** The URLs handed to [pdfkit.from_url], in the order of the calls. *)
Definition primary_urls (evs : list event) : list pystr :=
  omap (fun e => match e with FromUrl url _ _ _ => Some url | _ => None end) evs.

Definition primary_successes (evs : list event) : nat :=
  length (List.filter
            (fun e => match e with FromUrl _ _ _ None => true | _ => false end) evs).

Definition primary_failures (evs : list event) : nat :=
  length (List.filter
            (fun e => match e with FromUrl _ _ _ (Some _) => true | _ => false end) evs).

(** The steps of a browser session, in the order of the source. *)
Inductive step := Launch | Load | Wait | Export | Release.

(** The step an event is a call of, and whether the call returned. *)
Definition step_of (e : event) : option (step * bool) :=
  match e with
  | Chrome _ r => Some (Launch, bool_decide (r = None))
  | Get _ r => Some (Load, bool_decide (r = None))
  | WaitBody _ r => Some (Wait, bool_decide (r = None))
  | PrintToPDF _ (inr _) => Some (Export, true)
  | PrintToPDF _ (inl _) => Some (Export, false)
  | DriverQuit r => Some (Release, bool_decide (r = None))
  | _ => None
  end.

Definition step_eqb (a b : step) : bool :=
  match a, b with
  | Launch, Launch | Load, Load | Wait, Wait | Export, Export
  | Release, Release => true
  | _, _ => false
  end.

Definition attempts (st : step) (evs : list event) : nat :=
  length (List.filter
            (fun e => match step_of e with
                      | Some (st', _) => step_eqb st st'
                      | None => false
                      end) evs).

Definition successes (st : step) (evs : list event) : nat :=
  length (List.filter
            (fun e => match step_of e with
                      | Some (st', ok) => step_eqb st st' && ok
                      | None => false
                      end) evs).

(** The list files [process_directory] announces, in order. *)
Definition files_announced (evs : list event) : list path :=
  omap (fun e => match e with
                 | Log INFO (ProcessingFile txt_file) => Some txt_file
                 | _ => None
                 end) evs.

Definition is_warning (e : event) : bool :=
  match e with Log WARNING _ => true | _ => false end.

(** The lines a file has yielded when its reading ends. *)
Definition lines_yielded (f : text_stream) : nat :=
  match f with
  | OpenFails _ => 0%nat
  | Lines ls _ => length ls
  end.

(** What one URL may leave in the trace: the records and calls of
    [process_url] for [url], with the arguments the source gives them. *)
Definition url_event (self : URLToPDFAgent) (url : pystr) (output_path : path)
    (e : event) : Prop :=
  match e with
  | Log INFO (ProcessingURL u) | Log INFO (FallingBack u) => u = url
  | Log INFO (PdfCreated p) => p = output_path
  | Log ERROR (WkhtmltopdfError u _) | Log ERROR (SeleniumError u _) => u = url
  | FromUrl u p options _ =>
      u = url /\ p = output_path /\ options = wkhtmltopdf_options
  | Chrome arguments _ => arguments = chrome_arguments self
  | Get u _ => u = url
  | WaitBody timeout _ => timeout = 10
  | PrintToPDF options _ => options = print_options
  | DriverQuit _ => True
  | _ => False
  end.

(** [changed_only A fs0 fs1]: from [fs0] to [fs1] no path was removed or
    changed; the paths that are new satisfy [A]. *)
Definition changed_only (A : path -> Prop) (fs0 fs1 : filesystem) : Prop :=
  forall p, fs1 !! p = fs0 !! p \/ (fs0 !! p = None /\ A p).



(** A string that does not begin with white space. *)
Definition clean_head (s : pystr) : Prop :=
  match s with
  | [] => True
  | c :: _ => Str.isspace c = false
  end.

(** A URL as the collector returns it. *)
Definition collected (url : pystr) : Prop :=
  (Str.startswith url (lit "http://") = true
   \/ Str.startswith url (lit "https://") = true)
  /\ Str.strip url = url.

(** ** Strings *)

Lemma startswith_prefix s p : Str.startswith s p = true <-> p `prefix_of` s.
Proof.
  revert s; induction p as [|a p IH]; intros s; simpl.
  - split; [intros _; apply prefix_nil | reflexivity].
  - destruct s as [|b s].
    + split; [discriminate | intros H; apply prefix_nil_inv in H; discriminate].
    + rewrite andb_true_iff, N.eqb_eq, IH. split.
      * intros [-> H]. by apply prefix_cons.
      * intros H. split; [eapply prefix_cons_inv_1, H | eapply prefix_cons_inv_2, H].
Qed.

Lemma startswith_false s p : Str.startswith s p = false <-> ~ p `prefix_of` s.
Proof. rewrite <- startswith_prefix. destruct (Str.startswith s p); intuition congruence. Qed.

Lemma replace_from_skip old new k s :
  Str.replace_from old new k s = Str.replace_from old new 0 (drop k s).
Proof.
  revert k; induction s as [|c t IH]; intros [|k]; try reflexivity.
  simpl. apply IH.
Qed.

Lemma replace_cons s old new c t :
  s = c :: t ->
  Str.replace s old new =
    if Str.startswith s old
    then new ++ Str.replace (drop (Nat.pred (length old)) t) old new
    else c :: Str.replace t old new.
Proof.
  intros ->. unfold Str.replace. cbn [Str.replace_from].
  by rewrite (replace_from_skip _ _ (Nat.pred _)).
Qed.

Lemma erased_cons old c t r :
  ~ old `prefix_of` (c :: t) -> erased old t r -> erased old (c :: t) (c :: r).
Proof.
  intros Hc H. destruct H as [s Hs | a b r Ha Hb].
  - apply erased_none. intros [|i]; [exact Hc | apply Hs].
  - apply (erased_first old (c :: a) b r); [|exact Hb].
    intros [|i] Hi; [exact Hc |]. apply Ha. simpl in Hi. lia.
Qed.

Lemma replace_erased old s : old <> [] -> erased old s (Str.replace s old []).
Proof.
  intros Hold.
  assert (forall n s, (length s <= n)%nat -> erased old s (Str.replace s old [])) as H;
    [| by apply (H (length s))].
  clear s. induction n as [|n IH]; intros s Hn.
  - destruct s; [|simpl in Hn; lia].
    apply (erased_none old []). intros i H. rewrite drop_nil in H.
    apply prefix_nil_inv in H. contradiction.
  - destruct s as [|c t].
    { apply (erased_none old []). intros i H. rewrite drop_nil in H.
      apply prefix_nil_inv in H. contradiction. }
    rewrite (replace_cons _ _ _ c t eq_refl).
    destruct (Str.startswith (c :: t) old) eqn:E.
    + apply startswith_prefix in E. destruct E as [b Eb].
      destruct old as [|o old']; [contradiction|].
      simpl in Eb. injection Eb as -> ->.
      cbn [length Nat.pred]. rewrite drop_app_length. simpl.
      apply (erased_first (o :: old') [] b).
      * intros i Hi. simpl in Hi. lia.
      * apply IH. simpl in Hn. rewrite length_app in Hn. lia.
    + apply erased_cons; [by apply startswith_false|].
      apply IH. simpl in Hn. lia.
Qed.

Lemma lit_pdf_length : length (lit ".pdf") = 4%nat.
Proof. reflexivity. Qed.

(** C1, as the code has it: the first step of the file name deriver deletes
    every occurrence of [https://] and then every occurrence of [http://],
    wherever it stands in the string; the occurrences of each pass are taken
    from left to right without overlap. *)
Theorem strip_scheme_erases_everywhere (url : pystr) :
  exists mid,
    erased (lit "https://") url mid /\
    erased (lit "http://") mid (strip_scheme url).
Proof.
  exists (Str.replace url (lit "https://") []). split.
  - by apply replace_erased.
  - by apply replace_erased.
Qed.

(** C1, as stated, fails: a scheme that is not at the start of the string is
    removed all the same. *)
Lemma strip_scheme_not_leading_only :
  strip_scheme (lit "a/http://b") <> spec_strip_scheme (lit "a/http://b").
Proof. vm_compute. discriminate. Qed.

Example strip_scheme_inner :
  strip_scheme (lit "a/http://b") = lit "a/b" /\
  spec_strip_scheme (lit "a/http://b") = lit "a/http://b".
Proof. split; reflexivity. Qed.

Example strip_scheme_single_pass :
  strip_scheme (lit "hthttp://tp://x") = lit "http://x".
Proof. reflexivity. Qed.

Example sanitize_filename_inner_scheme (tbl : N -> bool) :
  sanitize_filename tbl (lit "a/http://b") = lit "a_b.pdf".
Proof. reflexivity. Qed.

Example sanitize_filename_example_com (tbl : N -> bool) :
  sanitize_filename tbl (lit "https://example.com") = lit "example.com.pdf".
Proof. reflexivity. Qed.

(** C5: file name derivation yields one result for every string, the same
    for the same string; the result ends in [.pdf], is at most 104 characters
    long, and every character before the suffix is alphanumeric or one of
    [.], [_], [-]. *)
Theorem sanitize_filename_shape (tbl : N -> bool) (url : pystr) :
  exists stem,
    (forall out, out = sanitize_filename tbl url <-> out = stem ++ lit ".pdf") /\
    (length stem <= 100)%nat /\
    (length (sanitize_filename tbl url) <= 104)%nat /\
    Forall (fun c => isalnum tbl c = true \/ In c (lit "._-")) stem.
Proof.
  unfold sanitize_filename, Str.slice_to.
  set (kept := List.filter _ _).
  exists (take 100 kept). split; [reflexivity|].
  assert (length (take 100 kept) <= 100)%nat as Hlen
    by (rewrite length_take; lia).
  split; [exact Hlen|]. split.
  - rewrite length_app, lit_pdf_length. lia.
  - apply Forall_take, Forall_forall. intros c Hc.
    apply list_elem_of_In in Hc. apply filter_In in Hc as [_ Hc].
    unfold keep_char in Hc. apply orb_true_iff in Hc as [Hc | Hc]; [by left | right].
    unfold Str.char_in in Hc. apply existsb_exists in Hc as (x & Hx & Hcx).
    apply N.eqb_eq in Hcx. by subst.
Qed.

(** ** The collector *)

Lemma logged_nil s : logged s [] = s.
Proof. destruct s. unfold logged. simpl. by rewrite app_nil_r. Qed.

Lemma logged_logged s a b : logged (logged s a) b = logged s (a ++ b).
Proof. unfold logged. simpl. by rewrite app_assoc. Qed.

Lemma read_lines_cons line rest n urls s :
  read_lines (line :: rest) n urls s =
    match spec_classify line with
    | Skipped => read_lines rest (S n) urls s
    | Accepted url => read_lines rest (S n) (urls ++ [url]) s
    | Rejected text =>
        read_lines rest (S n) urls (logged s [Log WARNING (InvalidURL n text)])
    end.
Proof.
  cbn [read_lines]. unfold spec_classify. cbv zeta.
  generalize (Str.strip line). intros [|c text]; [reflexivity|].
  cbn [Str.truthy andb]. rewrite bool_decide_eq_false_2 by discriminate.
  generalize (c :: text). intros t.
  destruct (Str.startswith t (lit "#")); [reflexivity|].
  destruct (Str.startswith t (lit "http://")); [reflexivity|].
  destruct (Str.startswith t (lit "https://")); reflexivity.
Qed.

Lemma read_lines_spec ls first urls s :
  read_lines ls first urls s =
    (Ok (urls ++ spec_accepted_urls ls), logged s (omap id (imap (spec_rejection first) ls))).
Proof.
  revert first urls s. induction ls as [|line rest IH]; intros first urls s.
  - simpl. by rewrite app_nil_r, logged_nil.
  - rewrite read_lines_cons. rewrite imap_cons.
    assert (imap (spec_rejection first ∘ S) rest = imap (spec_rejection (S first)) rest) as ->.
    { apply imap_ext. intros i x _. unfold spec_rejection. simpl.
      by replace (first + S i)%nat with (S (first + i)) by lia. }
    unfold spec_accepted_urls. cbn [omap list_omap].
    unfold spec_rejection at 1. rewrite Nat.add_0_r.
    destruct (spec_classify line) as [|url|text]; cbn [id]; rewrite IH.
    + reflexivity.
    + by rewrite <- app_assoc.
    + by rewrite logged_logged.
Qed.

(** What the collector does with each of the three ways reading can go. *)
Lemma read_urls_from_file_run w file_path s :
  read_urls_from_file w file_path s =
    match opened w s file_path with
    | OpenFails e => (Ok [], logged s [Log ERROR (ReadError file_path e)])
    | Lines ls (Some e) =>
        (Ok (spec_accepted_urls ls),
         logged s (spec_rejected_warnings ls ++ [Log ERROR (ReadError file_path e)]))
    | Lines ls None =>
        (Ok (spec_accepted_urls ls),
         logged s (spec_rejected_warnings ls
                   ++ [Log INFO (ReadCount (length (spec_accepted_urls ls)) file_path)]))
    end.
Proof.
  unfold read_urls_from_file, open_text, bind at 1.
  destruct (opened w s file_path) as [e | ls fault]; [reflexivity|].
  unfold bind at 1. rewrite read_lines_spec. cbn [app].
  destruct fault; unfold bind, log, emit, ret; cbn; unfold logged; cbn;
    by rewrite <- app_assoc.
Qed.

(** C8: each line the list file yields is trimmed and classified: a blank
    line or a comment is skipped silently, a line that starts with [http://]
    or [https://] is accepted, any other line draws a warning with its line
    number, counted from 1, and is dropped; the accepted URLs are returned in
    line order with repetitions kept. *)
Theorem read_urls_from_file_lines (w : World) (file_path : path) (s : State)
    (ls : list pystr) (fault : option exception) :
  opened w s file_path = Lines ls fault ->
  read_urls_from_file w file_path s =
    (Ok (spec_accepted_urls ls),
     logged s (spec_rejected_warnings ls
               ++ [match fault with
                   | None => Log INFO (ReadCount (length (spec_accepted_urls ls)) file_path)
                   | Some e => Log ERROR (ReadError file_path e)
                   end])).
Proof.
  intros Hopen. rewrite read_urls_from_file_run, Hopen. by destruct fault.
Qed.

(** C3, as the code has it: a failure to read the list file is caught and
    logged, and the collector returns: the empty list when the file cannot be
    opened, and the URLs accepted from the lines read before the error when
    the iteration raises. *)
Theorem read_urls_from_file_failure (w : World) (file_path : path) (s : State) :
  (forall e, opened w s file_path = OpenFails e ->
     read_urls_from_file w file_path s =
       (Ok [], logged s [Log ERROR (ReadError file_path e)])) /\
  (forall ls e, opened w s file_path = Lines ls (Some e) ->
     read_urls_from_file w file_path s =
       (Ok (spec_accepted_urls ls),
        logged s (spec_rejected_warnings ls ++ [Log ERROR (ReadError file_path e)]))).
Proof.
  split.
  - intros e Hopen. by rewrite read_urls_from_file_run, Hopen.
  - intros ls e Hopen. by rewrite read_urls_from_file_run, Hopen.
Qed.

(** ** The renderers *)

Lemma drop_trace {A} (l evs : list A) : drop (length l) (l ++ evs) = evs.
Proof. apply drop_app_length. Qed.

Ltac run_program :=
  unfold create_pdf_with_selenium, create_pdf_with_wkhtmltopdf, try_except,
    try_finally, call, page_printToPDF, open_for_writing, getitem_data,
    base64_b64decode, load_global, bind, log, emit, raise, ret, get_fs, create;
  cbn.

Ltac split_cases :=
  repeat match goal with
    | |- context [match ?x with _ => _ end] =>
        lazymatch x with
        | context [match _ with _ => _ end] => fail
        | _ => destruct x eqn:?; cbn
        end
    end.

Ltac tidy_events :=
  cbn; rewrite <- ?app_assoc; cbn; rewrite ?drop_trace.

Lemma released_nil : released [].
Proof. intros [|? ?] post a H; discriminate. Qed.

Lemma released_cons_launch a evs :
  (exists r, In (DriverQuit r) evs) -> released evs -> released (Chrome a None :: evs).
Proof.
  intros Hq Hr [|e pre] post a' H; simpl in H.
  - injection H as _ <-. exact Hq.
  - injection H as _ H. by apply (Hr pre post a').
Qed.

Lemma released_cons_other e evs :
  (forall a, e <> Chrome a None) -> released evs -> released (e :: evs).
Proof.
  intros He Hr [|e' pre] post a' H; simpl in H.
  - injection H as -> _. by destruct (He a').
  - injection H as _ H. by apply (Hr pre post a').
Qed.

Ltac show_released :=
  repeat first
    [ apply released_nil
    | apply released_cons_launch; [eexists; cbn; eauto 10 |]
    | apply released_cons_other; [discriminate |] ].

Lemma create_pdf_with_selenium_released w self url output_path s :
  released (events_of (create_pdf_with_selenium w self url output_path) s).
Proof.
  unfold events_of. run_program. split_cases; tidy_events; show_released.
Qed.

(** C2 fails on the code: [base64] is never imported, so once the export step
    has returned its payload the fallback renderer writes no byte and
    returns [False]. *)
Theorem create_pdf_with_selenium_after_export (w : World) (self : URLToPDFAgent)
    (url : pystr) (output_path : path) (s : State) (pdf_data : option pystr) :
  In (PrintToPDF print_options (inr pdf_data))
     (events_of (create_pdf_with_selenium w self url output_path) s) ->
  fst (create_pdf_with_selenium w self url output_path s) = Ok false /\
  forall p data,
    ~ In (WriteBytes p data)
         (events_of (create_pdf_with_selenium w self url output_path) s).
Proof.
  unfold events_of. run_program. split_cases; tidy_events; intros H.
  all: split; [reflexivity|].
  all: intros p data Hw; cbn in Hw; intuition discriminate.
Qed.

(** C6: whenever the fallback renderer has launched a browser, it calls
    [driver.quit] after the launch and before it returns, however the capture
    ends. *)
Theorem create_pdf_with_selenium_quits (w : World) (self : URLToPDFAgent)
    (url : pystr) (output_path : path) (s : State)
    (pre post : list event) (arguments : list string) :
  events_of (create_pdf_with_selenium w self url output_path) s
    = pre ++ Chrome arguments None :: post ->
  (exists r, In (DriverQuit r) post) /\
  exists ok, fst (create_pdf_with_selenium w self url output_path s) = Ok ok.
Proof.
  intros H. split.
  - eapply create_pdf_with_selenium_released, H.
  - clear H. run_program. split_cases; eauto.
Qed.

Lemma kind_lookup (fs0 : filesystem) p : kind fs0 p = None -> fs0 !! p = None.
Proof. destruct p; [discriminate | trivial]. Qed.

Lemma kind_mono (fs0 fs1 : filesystem) p n :
  fs0 ⊆ fs1 -> kind fs0 p = Some n -> kind fs1 p = Some n.
Proof.
  intros Hsub. destruct p; [trivial|]. simpl. intros H.
  by eapply lookup_weaken.
Qed.

Lemma create_grows (fs0 : filesystem) p n :
  kind fs0 p = None -> fs0 ⊆ <[p := n]> fs0.
Proof. intros H. by apply insert_subseteq, kind_lookup. Qed.

Lemma is_dir_mono (fs0 fs1 : filesystem) p :
  fs0 ⊆ fs1 -> is_dir fs0 p = true -> is_dir fs1 p = true.
Proof.
  unfold is_dir. intros Hsub. destruct (kind fs0 p) as [[]|] eqn:E; try discriminate.
  by rewrite (kind_mono _ _ _ _ Hsub E).
Qed.

Lemma create_pdf_with_wkhtmltopdf_returns w url output_path s :
  exists ok evs,
    create_pdf_with_wkhtmltopdf w url output_path s = (Ok ok, logged s evs).
Proof.
  unfold logged. run_program.
  split_cases; rewrite <- ?app_assoc; eexists _, _; reflexivity.
Qed.

Lemma create_pdf_with_selenium_returns w self url output_path s :
  exists s',
    create_pdf_with_selenium w self url output_path s = (Ok false, s') /\
    fs s ⊆ fs s'.
Proof.
  run_program. unfold parent_missing.
  repeat match goal with
    | |- context [kind ?f ?p] => destruct (kind f p) as [[]|] eqn:?; cbn
    end.
  all: split_cases; eexists; (split; [reflexivity|]); cbn;
    auto using create_grows.
Qed.

(** ** The driver *)

(** C4: [process_url] returns without raising. When the primary renderer
    succeeds it returns [True] and the fallback renderer is not called; when
    the primary renderer fails, the fallback renderer is called exactly once
    and its outcome is the outcome of [process_url]. *)
Theorem process_url_fallback (tbl : N -> bool) (w : World) (self : URLToPDFAgent)
    (url : pystr) (s : State) :
  let output_path := output_dir self ++ [sanitize_filename tbl url] in
  exists ok s1,
    create_pdf_with_wkhtmltopdf w url output_path
      (logged s [Log INFO (ProcessingURL url)]) = (Ok ok, s1) /\
    if ok then
      process_url tbl w self url s = (Ok true, s1) /\
      fallback_calls (events_of (process_url tbl w self url) s) = 0%nat
    else
      process_url tbl w self url s =
        create_pdf_with_selenium w self url output_path
          (logged s1 [Log INFO (FallingBack url)]) /\
      fallback_calls (events_of (process_url tbl w self url) s) = 1%nat /\
      exists r, fst (process_url tbl w self url s) = Ok r.
Proof.
  intros output_path. unfold process_url, events_of. fold output_path.
  generalize output_path. clear output_path. intros output_path.
  unfold logged. run_program.
  destruct (from_url w _ url output_path) eqn:Hprimary; cbn.
  - eexists false, _. split; [reflexivity|]. cbn.
    split; [reflexivity|].
    split_cases; tidy_events; eauto.
  - eexists true, _. split; [reflexivity|]. cbn.
    split; [reflexivity|]. tidy_events. reflexivity.
Qed.

Lemma bind_ok {A B} (m : M A) (k : A -> M B) s a s' :
  m s = (Ok a, s') -> bind m k s = k a s'.
Proof. unfold bind. by intros ->. Qed.

Lemma process_url_returns tbl w self url s :
  exists ok s',
    process_url tbl w self url s = (Ok ok, s') /\ fs s ⊆ fs s'.
Proof.
  unfold process_url.
  set (output_path := output_dir self ++ [sanitize_filename tbl url]).
  rewrite (bind_ok _ _ s tt (logged s [Log INFO (ProcessingURL url)])) by reflexivity.
  destruct (create_pdf_with_wkhtmltopdf_returns w url output_path
              (logged s [Log INFO (ProcessingURL url)])) as (ok & evs & Hp).
  rewrite (bind_ok _ _ _ _ _ Hp). destruct ok.
  - eexists _, _. split; [reflexivity|]. reflexivity.
  - rewrite (bind_ok _ _ _ tt (logged (logged (logged s [Log INFO (ProcessingURL url)]) evs)
                                 [Log INFO (FallingBack url)])) by reflexivity.
    destruct (create_pdf_with_selenium_returns w self url output_path
                (logged (logged (logged s [Log INFO (ProcessingURL url)]) evs)
                   [Log INFO (FallingBack url)])) as (s' & Hs & Hfs).
    eexists _, _. split; [exact Hs|]. exact Hfs.
Qed.

Lemma rejected_warnings_from_logs first ls :
  Forall is_log (omap id (imap (spec_rejection first) ls)).
Proof.
  revert first. induction ls as [|line rest IH]; intros first; [constructor|].
  rewrite imap_cons. cbn [omap list_omap].
  assert (Forall is_log (omap id (imap (spec_rejection first ∘ S) rest))) as Hrest.
  { erewrite imap_ext; [apply (IH (S first))|].
    intros i x _. unfold spec_rejection. simpl.
    by replace (first + S i)%nat with (S (first + i)) by lia. }
  unfold spec_rejection at 1. destruct (spec_classify line); cbn [id]; try exact Hrest.
  constructor; [by eexists _, _ | exact Hrest].
Qed.

Lemma read_urls_from_file_returns w file_path s :
  exists urls evs,
    read_urls_from_file w file_path s = (Ok urls, logged s evs) /\
    Forall is_log evs.
Proof.
  rewrite read_urls_from_file_run.
  destruct (opened w s file_path) as [e | ls [e|]].
  - eexists _, _. split; [reflexivity|].
    repeat constructor. by eexists _, _.
  - eexists _, _. split; [reflexivity|].
    apply Forall_app. split; [apply rejected_warnings_from_logs|].
    repeat constructor. by eexists _, _.
  - eexists _, _. split; [reflexivity|].
    apply Forall_app. split; [apply rejected_warnings_from_logs|].
    repeat constructor. by eexists _, _.
Qed.

Lemma process_urls_returns tbl w self urls n s :
  exists n' s',
    process_urls tbl w self urls n s = (Ok n', s') /\ fs s ⊆ fs s'.
Proof.
  revert n s. induction urls as [|url rest IH]; intros n s.
  - eexists _, _. split; reflexivity.
  - cbn [process_urls].
    destruct (process_url_returns tbl w self url s) as (ok & s1 & Hu & Hfs1).
    rewrite (bind_ok _ _ _ _ _ Hu).
    destruct (IH (if ok then S n else n) s1) as (n' & s' & Hr & Hfs).
    eexists _, _. split; [exact Hr|]. by etrans.
Qed.

Lemma process_file_returns tbl w self file_path s :
  exists s', process_file tbl w self file_path s = (Ok tt, s') /\ fs s ⊆ fs s'.
Proof.
  unfold process_file.
  destruct (read_urls_from_file_returns w file_path s) as (urls & evs & Hr & _).
  rewrite (bind_ok _ _ _ _ _ Hr). destruct urls as [|url rest].
  - eexists. split; reflexivity.
  - destruct (process_urls_returns tbl w self (url :: rest) 0 (logged s evs))
      as (n & s' & Hp & Hfs).
    rewrite (bind_ok _ _ _ _ _ Hp). eexists. split; [reflexivity|]. exact Hfs.
Qed.

Lemma process_files_returns tbl w self txt_files s :
  exists s', process_files tbl w self txt_files s = (Ok tt, s') /\ fs s ⊆ fs s'.
Proof.
  revert s. induction txt_files as [|txt_file rest IH]; intros s.
  - eexists. split; reflexivity.
  - cbn [process_files].
    rewrite (bind_ok _ _ s tt (logged s [Log INFO (ProcessingFile txt_file)]))
      by reflexivity.
    destruct (process_file_returns tbl w self txt_file
                (logged s [Log INFO (ProcessingFile txt_file)])) as (s1 & Hf & Hfs1).
    rewrite (bind_ok _ _ _ _ _ Hf).
    destruct (IH s1) as (s' & Hr & Hfs).
    eexists. split; [exact Hr|]. by etrans.
Qed.

Lemma process_directory_returns tbl w self directory_path s :
  exists s',
    process_directory tbl w self directory_path s = (Ok tt, s') /\ fs s ⊆ fs s'.
Proof.
  unfold process_directory.
  rewrite (bind_ok _ _ s (fs s) s) by reflexivity.
  destruct (glob_txt (fs s) directory_path) as [|txt_file rest].
  - eexists. split; reflexivity.
  - apply process_files_returns.
Qed.

Lemma logs_are_no_render_calls evs :
  Forall is_log evs -> List.filter is_render_call evs = [].
Proof.
  induction 1 as [|e evs (lv & m & ->) _ IH]; [reflexivity|]. exact IH.
Qed.

Lemma events_of_logged {A} (m : M A) s r evs :
  m s = (r, logged s evs) -> events_of m s = evs.
Proof. unfold events_of. intros ->. apply drop_trace. Qed.

(** C9: when the collector yields no URL, [process_file] logs a warning and
    returns, and no renderer is called on the way. *)
Theorem process_file_no_urls (tbl : N -> bool) (w : World) (self : URLToPDFAgent)
    (file_path : path) (s s1 : State) :
  read_urls_from_file w file_path s = (Ok [], s1) ->
  process_file tbl w self file_path s
    = (Ok tt, logged s1 [Log WARNING (NoValidURLs file_path)]) /\
  List.filter is_render_call (events_of (process_file tbl w self file_path) s) = [].
Proof.
  intros Hread.
  assert (process_file tbl w self file_path s
          = (Ok tt, logged s1 [Log WARNING (NoValidURLs file_path)])) as Hrun.
  { unfold process_file. by rewrite (bind_ok _ _ _ _ _ Hread). }
  split; [exact Hrun|].
  destruct (read_urls_from_file_returns w file_path s) as (urls & evs & Hr & Hlogs).
  rewrite Hread in Hr. injection Hr as _ ->.
  rewrite logged_logged in Hrun. rewrite (events_of_logged _ _ _ _ Hrun).
  apply logs_are_no_render_calls, Forall_app. split; [exact Hlogs|].
  repeat constructor. by eexists _, _.
Qed.

(** ** The entry point *)

Lemma open_for_writing_grows p s : fs s ⊆ fs (snd (open_for_writing p s)).
Proof.
  unfold open_for_writing, parent_missing, bind, get_fs, raise, ret, create. cbn.
  destruct (kind (fs s) p) as [[]|] eqn:Hp; cbn; try reflexivity.
  destruct (kind (fs s) (parent p)) as [[]|]; cbn; try reflexivity.
  by apply create_grows.
Qed.

Lemma mkdir_exist_ok_creates p s :
  is_dir (fs s) p = true
  \/ (kind (fs s) p = None /\ is_dir (fs s) (parent p) = true) ->
  exists s1, mkdir_exist_ok p s = (Ok tt, s1) /\ is_dir (fs s1) p = true.
Proof.
  unfold mkdir_exist_ok, parent_missing, bind, get_fs, raise, ret, create, is_dir.
  cbn. intros [H | [Hp H]].
  - destruct (kind (fs s) p) as [[]|] eqn:Hp; try discriminate.
    eexists. split; [reflexivity|]. by rewrite Hp.
  - rewrite Hp. destruct (kind (fs s) (parent p)) as [[]|]; try discriminate.
    eexists. split; [reflexivity|]. cbn.
    destruct p; [discriminate|]. unfold kind. by rewrite lookup_insert_eq.
Qed.

Lemma main_after_init tbl w args agent s1 :
  let rest :=
    (fs0 <- get_fs ;;
     if is_file fs0 (input args) then process_file tbl w agent (input args)
     else if is_dir fs0 (input args) then process_directory tbl w agent (input args)
     else emit (Stdout (NotValidInput (input args))) ;; sys_exit 1) in
  fs s1 ⊆ fs (snd (rest s1)) /\
  exit_status (fst (rest s1)) =
    if is_file (fs s1) (input args) || is_dir (fs s1) (input args) then 0 else 1.
Proof.
  intros rest. unfold rest. rewrite (bind_ok _ _ s1 (fs s1) s1) by reflexivity.
  destruct (is_file (fs s1) (input args)); cbn [orb].
  { destruct (process_file_returns tbl w agent (input args) s1) as (s' & -> & Hfs).
    by split. }
  destruct (is_dir (fs s1) (input args)).
  { destruct (process_directory_returns tbl w agent (input args) s1) as (s' & -> & Hfs).
    by split. }
  by split.
Qed.

(** C7, as the code has it: once the agent has been constructed, [main] exits
    with status 1 exactly when the input path is neither a file nor a
    directory, and with status 0 otherwise, whatever happened to the URLs
    and files. *)
Theorem main_exit_status (tbl : N -> bool) (w : World) (args : Args)
    (s s1 : State) (agent : URLToPDFAgent) :
  URLToPDFAgent_init (output args) (negb (no_headless args)) s = (Ok agent, s1) ->
  let status := exit_status (fst (main tbl w args s)) in
  (status = 1 <->
     is_file (fs s1) (input args) = false /\ is_dir (fs s1) (input args) = false) /\
  (status <> 1 -> status = 0).
Proof.
  intros Hinit status. unfold status, main. rewrite (bind_ok _ _ _ _ _ Hinit).
  destruct (main_after_init tbl w args agent s1) as [_ ->].
  destruct (is_file (fs s1) (input args)), (is_dir (fs s1) (input args)); cbn.
  all: split; [split; [intros H; try discriminate H; by split
                      | intros [Hf Hd]; try discriminate Hf; try discriminate Hd; reflexivity]
              | intros H; try reflexivity; by destruct H].
Qed.

(** C10, as the code has it: when the output path is a directory already, or
    is missing under a parent that is a directory, the output directory
    exists after [main], whatever the input path is and however [main]
    ends. *)
Theorem main_creates_output_dir (tbl : N -> bool) (w : World) (args : Args)
    (s : State) :
  is_dir (fs s) (output args) = true
  \/ (kind (fs s) (output args) = None
      /\ is_dir (fs s) (parent (output args)) = true) ->
  is_dir (fs (snd (main tbl w args s))) (output args) = true.
Proof.
  intros Hout.
  destruct (mkdir_exist_ok_creates _ _ Hout) as (s1 & Hmk & Hdir).
  pose proof (open_for_writing_grows log_file s1) as Hlog.
  pose proof (main_after_init tbl w args
                {| output_dir := output args; headless := negb (no_headless args) |})
    as Hrest.
  unfold main, URLToPDFAgent_init, setup_logging.
  unfold bind at 1. unfold bind at 1. rewrite Hmk.
  unfold bind at 1.
  destruct (open_for_writing log_file s1) as [[[]| e | c] s2]; cbn in Hlog |- *.
  - destruct (Hrest s2) as [Hfs _]. cbn in Hfs.
    eapply is_dir_mono; [|exact Hdir]. by etrans.
  - by eapply is_dir_mono.
  - by eapply is_dir_mono.
Qed.

(** C3, as stated, fails: the URL read before the error is returned. *)
Lemma read_urls_from_file_keeps_read_urls :
  opened (obliging broken_stream None) fresh urls_txt = broken_stream /\
  fst (read_urls_from_file (obliging broken_stream None) urls_txt fresh) <> Ok [].
Proof. split; [reflexivity|]. vm_compute. discriminate. Qed.

Lemma read_urls_from_file_failure_witness :
  read_urls_from_file (obliging broken_stream None) urls_txt fresh =
    (Ok [example_com],
     logged fresh [Log ERROR (ReadError urls_txt (Raised "UnicodeDecodeError"))]).
Proof.
  apply (proj2 (read_urls_from_file_failure (obliging broken_stream None) urls_txt fresh)
           [lit "https://example.com" ++ newline] (Raised "UnicodeDecodeError")).
  reflexivity.
Defined.

Lemma read_urls_from_file_lines_witness :
  opened (obliging (Lines scenario_lines None) None) fresh urls_txt
    = Lines scenario_lines None /\
  read_urls_from_file (obliging (Lines scenario_lines None) None) urls_txt fresh =
    (Ok [example_com],
     logged fresh [Log WARNING (InvalidURL 2 (lit "not-a-url"));
                   Log INFO (ReadCount 1 urls_txt)]).
Proof.
  split; [reflexivity|].
  apply (read_urls_from_file_lines (obliging (Lines scenario_lines None) None)
           urls_txt fresh scenario_lines None).
  reflexivity.
Defined.

Example sanitize_filename_scenario :
  pdf_output ++ [sanitize_filename ascii_table example_com] = example_com_pdf.
Proof. reflexivity. Qed.

(** The fallback renderer at a page that Chrome loads and exports: the file
    is opened for writing, [base64] is looked up and is not bound, the
    browser is quit and the error is logged. *)
Example create_pdf_with_selenium_scenario :
  let run := create_pdf_with_selenium (obliging broken_stream failed) agent
               example_com example_com_pdf prepared in
  fst run = Ok false /\
  trace (snd run) =
    [Chrome (chrome_arguments agent) None;
     Get example_com None;
     WaitBody 10 None;
     PrintToPDF print_options (inr (Some (lit "JVBERi0=")));
     DriverQuit None;
     Log ERROR (SeleniumError example_com (NameError "base64"))] /\
  fs prepared !! example_com_pdf = None /\
  fs (snd run) !! example_com_pdf = Some File.
Proof. repeat split; reflexivity. Qed.

Lemma create_pdf_with_selenium_after_export_witness :
  fst (create_pdf_with_selenium (obliging broken_stream failed) agent
         example_com example_com_pdf prepared) = Ok false /\
  forall p data,
    ~ In (WriteBytes p data)
         (events_of (create_pdf_with_selenium (obliging broken_stream failed) agent
                       example_com example_com_pdf) prepared).
Proof.
  apply (create_pdf_with_selenium_after_export (obliging broken_stream failed) agent
           example_com example_com_pdf prepared (Some (lit "JVBERi0="))).
  right; right; right; left. reflexivity.
Defined.

Lemma create_pdf_with_selenium_quits_witness :
  (exists r,
     In (DriverQuit r)
        [Get example_com None; WaitBody 10 None;
         PrintToPDF print_options (inr (Some (lit "JVBERi0=")));
         DriverQuit None;
         Log ERROR (SeleniumError example_com (NameError "base64"))]) /\
  exists ok,
    fst (create_pdf_with_selenium (obliging broken_stream failed) agent
           example_com example_com_pdf prepared) = Ok ok.
Proof.
  apply (create_pdf_with_selenium_quits (obliging broken_stream failed) agent
           example_com example_com_pdf prepared [] _ (chrome_arguments agent)).
  reflexivity.
Defined.

(** [process_url] when the primary renderer succeeds, and when it fails. *)
Example process_url_primary_scenario :
  let run := process_url ascii_table (obliging broken_stream None) agent
               example_com prepared in
  fst run = Ok true /\
  trace (snd run) =
    [Log INFO (ProcessingURL example_com);
     FromUrl example_com example_com_pdf wkhtmltopdf_options None;
     Log INFO (PdfCreated example_com_pdf)].
Proof. split; reflexivity. Qed.

Example process_url_fallback_scenario :
  let run := process_url ascii_table (obliging broken_stream failed) agent
               example_com prepared in
  fst run = Ok false /\
  fallback_calls (trace (snd run)) = 1%nat.
Proof. split; reflexivity. Qed.

Lemma process_file_no_urls_witness :
  process_file ascii_table (obliging (Lines idle_lines None) None) agent urls_txt prepared
    = (Ok tt,
       logged prepared
         [Log WARNING (InvalidURL 3 (lit "not-a-url"));
          Log INFO (ReadCount 0 urls_txt);
          Log WARNING (NoValidURLs urls_txt)]) /\
  List.filter is_render_call
    (events_of (process_file ascii_table (obliging (Lines idle_lines None) None)
                  agent urls_txt) prepared) = [].
Proof.
  apply (process_file_no_urls ascii_table (obliging (Lines idle_lines None) None)
           agent urls_txt prepared
           (logged prepared [Log WARNING (InvalidURL 3 (lit "not-a-url"));
                             Log INFO (ReadCount 0 urls_txt)])).
  reflexivity.
Defined.

Example main_nested_output_raises :
  main ascii_table (obliging broken_stream failed) nested_args fresh
    = (Raise (FileNotFoundError [lit "out"; lit "pdfs"]), fresh).
Proof. reflexivity. Qed.

(** C7, as stated, fails: the input path is a file, the output directory
    cannot be created, and the process ends with status 1. *)
Lemma main_exit_status_valid_input :
  ~ (exit_status (fst (main ascii_table (obliging broken_stream failed) nested_args fresh)) = 1
     <-> is_file (fs fresh) (input nested_args) = false
         /\ is_dir (fs fresh) (input nested_args) = false).
Proof. intros [H _]. destruct (H eq_refl) as [Hf _]. discriminate Hf. Qed.

Lemma main_exit_status_witness :
  let status :=
    exit_status (fst (main ascii_table (obliging broken_stream failed) usual_args fresh)) in
  (status = 1 <->
     is_file (<[log_file := File]> (<[pdf_output := Dir]> (fs fresh))) urls_txt = false
     /\ is_dir (<[log_file := File]> (<[pdf_output := Dir]> (fs fresh))) urls_txt = false) /\
  (status <> 1 -> status = 0).
Proof.
  exact (main_exit_status ascii_table (obliging broken_stream failed) usual_args fresh
           {| fs := <[log_file := File]> (<[pdf_output := Dir]> (fs fresh)); trace := [] |}
           {| output_dir := pdf_output; headless := true |} eq_refl).
Defined.

Example main_scenario_statuses :
  exit_status (fst (main ascii_table (obliging broken_stream failed) usual_args fresh)) = 0 /\
  exit_status (fst (main ascii_table (obliging broken_stream failed) missing_args fresh)) = 1.
Proof. split; reflexivity. Qed.

(** C10, as stated, fails: below a missing parent no output directory is
    created. *)
Lemma main_leaves_no_output_dir :
  is_dir (fs (snd (main ascii_table (obliging broken_stream failed) nested_args fresh)))
    (output nested_args) <> true.
Proof. vm_compute. discriminate. Qed.

Lemma main_creates_output_dir_witness :
  is_dir (fs (snd (main ascii_table (obliging broken_stream failed) missing_args fresh)))
    (output missing_args) = true.
Proof.
  apply (main_creates_output_dir ascii_table (obliging broken_stream failed)
           missing_args fresh).
  right. split; reflexivity.
Defined.

(** ** More on the file name deriver *)

Lemma startswith_all_in s old c :
  Str.startswith s old = true -> In c old -> In c s.
Proof.
  intros H Hc. apply startswith_prefix in H as [k ->].
  apply in_or_app. by left.
Qed.

(** A string that lacks a character of [old] has no occurrence of [old]. *)
Lemma replace_absent s old new c :
  In c old -> ~ In c s -> Str.replace s old new = s.
Proof.
  intros Hc. induction s as [|a t IH]; intros Hs; [reflexivity|].
  rewrite (replace_cons _ _ _ a t eq_refl).
  destruct (Str.startswith (a :: t) old) eqn:E.
  - destruct Hs. by eapply startswith_all_in.
  - f_equal. apply IH. intros H. apply Hs. by right.
Qed.

Lemma filter_all {A} (f : A -> bool) (l : list A) :
  Forall (fun x => f x = true) l -> List.filter f l = l.
Proof.
  induction 1 as [|x l Hx _ IH]; [reflexivity|].
  simpl. by rewrite Hx, IH.
Qed.

Lemma keep_char_in tbl c url :
  keep_char tbl c = false -> Forall (fun x => keep_char tbl x = true) url -> ~ In c url.
Proof.
  intros Hc Hall Hin. rewrite Forall_forall in Hall.
  apply list_elem_of_In, Hall in Hin. congruence.
Qed.

Lemma in_take {A} (x : A) n l : In x (take n l) -> In x l.
Proof.
  revert n. induction l as [|y l IH]; intros [|n] H; try contradiction.
  destruct H as [-> | H]; [by left | right; by eapply IH].
Qed.

Lemma sanitize_filename_chars tbl url c :
  In c (sanitize_filename tbl url) -> keep_char tbl c = true \/ In c (lit ".pdf").
Proof.
  unfold sanitize_filename, Str.slice_to. intros H.
  apply in_app_or in H as [H | H]; [left | by right].
  apply in_take, filter_In in H. tauto.
Qed.

(** X1: a string made of letters, digits, [.], [_] and [-] only, at most 100
    characters long, is its own file name stem: the file name is the string
    followed by [.pdf]. *)
Theorem sanitize_filename_safe_name (tbl : N -> bool) (url : pystr) :
  Forall (fun c => keep_char tbl c = true) url ->
  (length url <= 100)%nat ->
  sanitize_filename tbl url = url ++ lit ".pdf".
Proof.
  intros Hall Hlen. unfold sanitize_filename, strip_scheme, replace_separators.
  assert (forall c, keep_char tbl c = false -> ~ In c url) as Hno
    by (intros c Hc; by eapply keep_char_in).
  rewrite (replace_absent url (lit "https://") [] 0x3a);
    [| cbn; tauto | by apply Hno].
  rewrite (replace_absent url (lit "http://") [] 0x3a);
    [| cbn; tauto | by apply Hno].
  rewrite (replace_absent url (lit "/") (lit "_") 0x2f);
    [| cbn; tauto | by apply Hno].
  rewrite (replace_absent url (lit "?") (lit "_") 0x3f);
    [| cbn; tauto | by apply Hno].
  rewrite (replace_absent url (lit "&") (lit "_") 0x26);
    [| cbn; tauto | by apply Hno].
  rewrite (filter_all _ _ Hall). unfold Str.slice_to.
  by rewrite take_ge.
Qed.

Lemma sanitize_filename_safe_name_witness :
  sanitize_filename ascii_table (lit "example.com") = lit "example.com" ++ lit ".pdf".
Proof.
  apply (sanitize_filename_safe_name ascii_table (lit "example.com")).
  - repeat constructor.
  - cbn. lia.
Defined.

(** X2: a URL gives the same file name with [https://] in front, with
    [http://] in front, and with neither: the three collide on one file. *)
Theorem sanitize_filename_scheme_collision (tbl : N -> bool) (rest : pystr) :
  sanitize_filename tbl (lit "https://" ++ rest) = sanitize_filename tbl rest /\
  sanitize_filename tbl (lit "http://" ++ rest) = sanitize_filename tbl rest.
Proof. split; reflexivity. Qed.

(** X3: the file name is a plain name: it holds no [/] and no NUL, and it is
    neither empty nor [.] nor [..], so that the output path is a child of the
    output directory. *)
Theorem sanitize_filename_plain_name (tbl : N -> bool) (url : pystr) :
  ~ In 0x2f (sanitize_filename tbl url) /\
  ~ In 0 (sanitize_filename tbl url) /\
  sanitize_filename tbl url <> [] /\
  sanitize_filename tbl url <> lit "." /\
  sanitize_filename tbl url <> lit "..".
Proof.
  assert (4 <= length (sanitize_filename tbl url))%nat as Hlen.
  { unfold sanitize_filename. rewrite length_app, lit_pdf_length. lia. }
  repeat split.
  - intros H. apply sanitize_filename_chars in H as [H | H]; [discriminate H|].
    cbn in H. intuition discriminate.
  - intros H. apply sanitize_filename_chars in H as [H | H]; [discriminate H|].
    cbn in H. intuition discriminate.
  - intros H. rewrite H in Hlen. cbn in Hlen. lia.
  - intros H. rewrite H in Hlen. cbn in Hlen. lia.
  - intros H. rewrite H in Hlen. cbn in Hlen. lia.
Qed.

(** ** More on the collector *)

Lemma lstrip_clean s : clean_head (Str.lstrip s).
Proof.
  induction s as [|c t IH]; [exact I|]. simpl.
  destruct (Str.isspace c) eqn:E; [exact IH | exact E].
Qed.

Lemma lstrip_id s : clean_head s -> Str.lstrip s = s.
Proof. destruct s as [|c t]; [reflexivity|]. simpl. by intros ->. Qed.

Lemma lstrip_suffix s : exists k, s = k ++ Str.lstrip s.
Proof.
  induction s as [|c t [k IH]]; [by exists []|]. simpl.
  destruct (Str.isspace c).
  - exists (c :: k). simpl. by rewrite <- IH.
  - by exists [].
Qed.

Lemma clean_head_prefix a b k : a = b ++ k -> clean_head a -> clean_head b.
Proof. intros ->. by destruct b. Qed.

Lemma strip_strip s : Str.strip (Str.strip s) = Str.strip s.
Proof.
  unfold Str.strip, Str.rstrip.
  set (a := Str.lstrip s).
  assert (clean_head (rev (Str.lstrip (rev a)))) as Hb.
  { destruct (lstrip_suffix (rev a)) as [k Hk].
    apply (clean_head_prefix a _ (rev k)); [|apply lstrip_clean].
    rewrite <- rev_app_distr, <- Hk. by rewrite rev_involutive. }
  rewrite (lstrip_id _ Hb), rev_involutive.
  by rewrite (lstrip_id _ (lstrip_clean _)).
Qed.

Lemma spec_classify_accepted line url :
  spec_classify line = Accepted url -> collected url.
Proof.
  unfold spec_classify. cbv zeta.
  destruct (bool_decide _); [discriminate|].
  destruct (Str.startswith _ (lit "#")); [discriminate|].
  destruct (Str.startswith _ (lit "http://")) eqn:E1.
  { intros [= <-]. split; [by left | apply strip_strip]. }
  destruct (Str.startswith _ (lit "https://")) eqn:E2; [|discriminate].
  intros [= <-]. split; [by right | apply strip_strip].
Qed.

Lemma spec_accepted_urls_collected ls : Forall collected (spec_accepted_urls ls).
Proof.
  unfold spec_accepted_urls. induction ls as [|line rest IH]; [constructor|].
  cbn [omap list_omap].
  destruct (spec_classify line) eqn:E; try exact IH.
  constructor; [by eapply spec_classify_accepted | exact IH].
Qed.

(** X4: whatever the list file holds and however its reading ends, every URL
    the collector returns starts with [http://] or [https://] and carries no
    white space at either end. *)
Theorem read_urls_from_file_collected (w : World) (file_path : path) (s : State) :
  exists urls s',
    read_urls_from_file w file_path s = (Ok urls, s') /\
    Forall (fun url =>
              (Str.startswith url (lit "http://") = true
               \/ Str.startswith url (lit "https://") = true)
              /\ Str.strip url = url) urls.
Proof.
  rewrite read_urls_from_file_run.
  destruct (opened w s file_path) as [e | ls [e|]]; eexists _, _;
    (split; [reflexivity|]); try apply spec_accepted_urls_collected.
  constructor.
Qed.

Lemma imap_spec_rejection_S first rest :
  imap (spec_rejection first ∘ S) rest = imap (spec_rejection (S first)) rest.
Proof.
  apply imap_ext. intros i x _. unfold spec_rejection. simpl.
  by replace (first + S i)%nat with (S (first + i)) by lia.
Qed.

Lemma spec_rejections_count first ls :
  (length (spec_accepted_urls ls)
   + length (omap id (imap (spec_rejection first) ls)) <= length ls)%nat /\
  Forall (fun e => is_warning e = true) (omap id (imap (spec_rejection first) ls)).
Proof.
  revert first. induction ls as [|line rest IH]; intros first.
  { split; [reflexivity | constructor]. }
  rewrite imap_cons, imap_spec_rejection_S.
  destruct (IH (S first)) as [Hlen Hall].
  unfold spec_accepted_urls in *. cbn [omap list_omap length].
  remember (spec_rejection first 0 line) as r eqn:Hr.
  unfold spec_rejection in Hr.
  destruct (spec_classify line); subst r; cbn [id length]; split;
    try exact Hall; try lia.
  by constructor.
Qed.

(** X5: the collector only reads and logs: it returns without raising, leaves
    the file system as it was, and records nothing but log lines; a line
    yields at most one of a URL and a warning, so the URLs and the warnings
    together are no more than the lines read. *)
Theorem read_urls_from_file_read_only (w : World) (file_path : path) (s : State) :
  exists urls evs,
    read_urls_from_file w file_path s = (Ok urls, logged s evs) /\
    Forall (fun e => exists lv m, e = Log lv m) evs /\
    (length urls + length (List.filter is_warning evs)
     <= lines_yielded (opened w s file_path))%nat.
Proof.
  destruct (read_urls_from_file_returns w file_path s) as (urls & evs & Hrun & Hlogs).
  exists urls, evs. split; [exact Hrun|]. split; [exact Hlogs|].
  rewrite read_urls_from_file_run in Hrun.
  destruct (opened w s file_path) as [e | ls fault]; cbn [lines_yielded].
  - injection Hrun as <- Hs. apply app_inv_head in Hs. subst evs. cbn. lia.
  - destruct (spec_rejections_count 1 ls) as [Hlen Hall].
    fold (spec_rejected_warnings ls) in Hlen, Hall.
    assert (exists final, is_warning final = false /\ urls = spec_accepted_urls ls /\
              evs = spec_rejected_warnings ls ++ [final]) as (final & Hf & -> & ->).
    { destruct fault; injection Hrun as <- Hs; apply app_inv_head in Hs;
        subst evs; eexists; (split; [|split; reflexivity]); reflexivity. }
    rewrite List.filter_app, length_app, (filter_all _ _ Hall). cbn. rewrite Hf.
    cbn. lia.
Qed.

(** ** More on the renderers *)

Lemma create_pdf_with_wkhtmltopdf_run w url output_path s :
  create_pdf_with_wkhtmltopdf w url output_path s =
    match from_url w (trace s) url output_path with
    | None =>
        (Ok true,
         logged s [FromUrl url output_path wkhtmltopdf_options None;
                   Log INFO (PdfCreated output_path)])
    | Some e =>
        (Ok false,
         logged s [FromUrl url output_path wkhtmltopdf_options (Some e);
                   Log ERROR (WkhtmltopdfError url e)])
    end.
Proof.
  unfold logged. run_program.
  destruct (from_url w (trace s) url output_path); cbn;
    by rewrite <- app_assoc.
Qed.

(** X6: the primary renderer never raises: it calls [pdfkit.from_url] once,
    with the URL, the output path and its fixed options, returns [True]
    exactly when the call returned, and leaves the file system to the
    renderer. *)
Theorem create_pdf_with_wkhtmltopdf_contract (w : World) (url : pystr)
    (output_path : path) (s : State) :
  exists ok evs,
    create_pdf_with_wkhtmltopdf w url output_path s = (Ok ok, logged s evs) /\
    (ok = true <-> from_url w (trace s) url output_path = None) /\
    List.filter is_primary_call evs =
      [FromUrl url output_path wkhtmltopdf_options
         (from_url w (trace s) url output_path)].
Proof.
  rewrite create_pdf_with_wkhtmltopdf_run.
  destruct (from_url w (trace s) url output_path); eexists _, _;
    (split; [reflexivity|]); split; try reflexivity; split; congruence.
Qed.

(** X7: in the fallback renderer each step of the browser session is tried
    exactly when the step before it succeeded: one launch; the page is loaded
    when the launch succeeded, the body awaited when the load succeeded, the
    export asked when the wait succeeded; and [driver.quit] is called exactly
    when the launch succeeded. *)
Theorem create_pdf_with_selenium_steps (w : World) (self : URLToPDFAgent)
    (url : pystr) (output_path : path) (s : State) :
  let evs := events_of (create_pdf_with_selenium w self url output_path) s in
  attempts Launch evs = 1%nat /\
  attempts Load evs = successes Launch evs /\
  attempts Wait evs = successes Load evs /\
  attempts Export evs = successes Wait evs /\
  attempts Release evs = successes Launch evs.
Proof.
  unfold events_of. run_program. split_cases; tidy_events; repeat split.
Qed.


(** ** More on the driver *)

Lemma changed_only_refl (A : path -> Prop) (fs0 : filesystem) : changed_only A fs0 fs0.
Proof. intros p. by left. Qed.

Lemma changed_only_trans (A : path -> Prop) (fs0 fs1 fs2 : filesystem) :
  changed_only A fs0 fs1 -> changed_only A fs1 fs2 -> changed_only A fs0 fs2.
Proof.
  intros H01 H12 p. destruct (H01 p) as [E1 | [E1 HA]]; [|by right].
  destruct (H12 p) as [E2 | [E2 HA]].
  - left. congruence.
  - right. split; [congruence | exact HA].
Qed.

Lemma changed_only_weaken (A B : path -> Prop) (fs0 fs1 : filesystem) :
  (forall p, A p -> B p) -> changed_only A fs0 fs1 -> changed_only B fs0 fs1.
Proof. intros HAB H p. destruct (H p) as [E | [E HA]]; [by left | right; auto]. Qed.

Lemma changed_only_create (A : path -> Prop) (fs0 : filesystem) p n :
  kind fs0 p = None -> A p -> changed_only A fs0 (<[p := n]> fs0).
Proof.
  intros Hk HA q. destruct (decide (q = p)) as [-> | Hq].
  - right. split; [by apply kind_lookup | exact HA].
  - left. by rewrite lookup_insert_ne.
Qed.

Lemma changed_only_subseteq (A : path -> Prop) (fs0 fs1 : filesystem) :
  changed_only A fs0 fs1 -> fs0 ⊆ fs1.
Proof.
  intros H. apply map_subseteq_spec. intros p n Hp.
  destruct (H p) as [E | [E _]]; congruence.
Qed.

Lemma primary_urls_app a b : primary_urls (a ++ b) = primary_urls a ++ primary_urls b.
Proof. apply omap_app. Qed.

Lemma files_announced_app a b :
  files_announced (a ++ b) = files_announced a ++ files_announced b.
Proof. apply omap_app. Qed.

Lemma primary_successes_app a b :
  primary_successes (a ++ b) = (primary_successes a + primary_successes b)%nat.
Proof. unfold primary_successes. by rewrite List.filter_app, length_app. Qed.

Lemma primary_failures_app a b :
  primary_failures (a ++ b) = (primary_failures a + primary_failures b)%nat.
Proof. unfold primary_failures. by rewrite List.filter_app, length_app. Qed.

Lemma fallback_calls_app a b :
  fallback_calls (a ++ b) = (fallback_calls a + fallback_calls b)%nat.
Proof. unfold fallback_calls. by rewrite List.filter_app, length_app. Qed.

(** What the fallback renderer leaves behind. *)
Lemma create_pdf_with_selenium_run w self url output_path s :
  exists evs s',
    create_pdf_with_selenium w self url output_path s = (Ok false, s') /\
    trace s' = trace s ++ evs /\
    changed_only (fun p => p = output_path) (fs s) (fs s') /\
    Forall (url_event self url output_path) evs /\
    primary_urls evs = [] /\
    primary_successes evs = 0%nat /\
    primary_failures evs = 0%nat /\
    fallback_calls evs = 1%nat /\
    files_announced evs = [].
Proof.
  run_program. unfold parent_missing.
  repeat match goal with
    | |- context [kind ?f ?p] => destruct (kind f p) as [[]|] eqn:?; cbn
    end.
  all: split_cases; eexists _, _; (split; [reflexivity|]); cbn;
    rewrite <- ?app_assoc; (split; [reflexivity|]);
    (split; [first [apply changed_only_refl | by apply changed_only_create]|]);
    (split; [repeat constructor|]); repeat split.
Qed.

(** What one URL leaves behind. *)
Lemma process_url_run tbl w self url s :
  let output_path := output_dir self ++ [sanitize_filename tbl url] in
  exists ok evs s',
    process_url tbl w self url s = (Ok ok, s') /\
    trace s' = trace s ++ evs /\
    changed_only (fun p => p = output_path) (fs s) (fs s') /\
    Forall (url_event self url output_path) evs /\
    primary_urls evs = [url] /\
    (primary_successes evs + primary_failures evs = 1)%nat /\
    (primary_successes evs <= if ok then 1 else 0)%nat /\
    fallback_calls evs = primary_failures evs /\
    files_announced evs = [].
Proof.
  intros output_path. unfold process_url. fold output_path.
  rewrite (bind_ok _ _ s tt (logged s [Log INFO (ProcessingURL url)])) by reflexivity.
  pose proof (create_pdf_with_wkhtmltopdf_run w url output_path
                (logged s [Log INFO (ProcessingURL url)])) as Hwk.
  destruct (from_url w _ url output_path) as [e|];
    rewrite (bind_ok _ _ _ _ _ Hwk); clear Hwk.
  - erewrite bind_ok by reflexivity.
    match goal with
    | |- context [create_pdf_with_selenium w self url output_path ?s0] =>
        destruct (create_pdf_with_selenium_run w self url output_path s0)
          as (evs & s' & Hrun & Htr & Hfs & Hall & Hu & Hs & Hf & Hc & Ha)
    end.
    eexists false, _, s'. split; [exact Hrun|].
    rewrite Htr. cbn [logged trace fs] in *. rewrite <- !app_assoc.
    split; [reflexivity|]. split; [exact Hfs|].
    split; [repeat (constructor; [by cbn|]); exact Hall|].
    cbn [app]. unfold primary_urls, files_announced, primary_successes,
      primary_failures, fallback_calls in *. cbn. rewrite Hu, Hs, Hf, Hc, Ha.
    repeat split; lia.
  - eexists true, _, _. split; [reflexivity|].
    cbn [logged trace fs]. rewrite <- !app_assoc.
    split; [reflexivity|]. split; [apply changed_only_refl|].
    split; [repeat constructor|]. repeat split. cbn. lia.
Qed.


Lemma process_urls_run tbl w self urls n s :
  exists n' evs s',
    process_urls tbl w self urls n s = (Ok n', s') /\
    trace s' = trace s ++ evs /\
    changed_only (fun p => exists url, p = output_dir self ++ [sanitize_filename tbl url])
      (fs s) (fs s') /\
    primary_urls evs = urls /\
    (primary_successes evs + primary_failures evs = length urls)%nat /\
    (n + primary_successes evs <= n' <= n + length urls)%nat /\
    fallback_calls evs = primary_failures evs /\
    files_announced evs = [].
Proof.
  revert n s. induction urls as [|url rest IH]; intros n s.
  { eexists n, [], s. cbn. rewrite app_nil_r.
    repeat split; try lia. apply changed_only_refl. }
  cbn [process_urls].
  destruct (process_url_run tbl w self url s)
    as (ok & evs1 & s1 & Hrun1 & Htr1 & Hfs1 & _ & Hu1 & Hsf1 & Hs1 & Hc1 & Ha1).
  rewrite (bind_ok _ _ _ _ _ Hrun1).
  destruct (IH (if ok then S n else n) s1)
    as (n' & evs2 & s2 & Hrun2 & Htr2 & Hfs2 & Hu2 & Hsf2 & Hn2 & Hc2 & Ha2).
  exists n', (evs1 ++ evs2), s2. split; [exact Hrun2|].
  split; [by rewrite Htr2, Htr1, app_assoc|].
  split.
  { eapply changed_only_trans; [|exact Hfs2].
    eapply changed_only_weaken; [|exact Hfs1]. intros p ->. by eexists. }
  rewrite primary_urls_app, primary_successes_app, primary_failures_app,
    fallback_calls_app, files_announced_app, Hu1, Hu2, Ha1, Ha2, Hc1, Hc2.
  cbn [length app]. repeat split; try lia; by destruct ok; lia.
Qed.



(** X10: [process_file] tries every URL of the list, once and in order,
    whatever happened to the ones before it; the fallback renderer is called
    once for each failure of the primary renderer; and when there are URLs,
    the last line logged is the summary, whose count lies between the
    successes of the primary renderer and the number of URLs. *)
Theorem process_file_attempts (tbl : N -> bool) (w : World) (self : URLToPDFAgent)
    (file_path : path) (s s1 : State) (urls : list pystr) :
  read_urls_from_file w file_path s = (Ok urls, s1) ->
  exists evs s',
    process_file tbl w self file_path s = (Ok tt, s') /\
    trace s' = trace s1 ++ evs /\
    primary_urls evs = urls /\
    (primary_successes evs + primary_failures evs = length urls)%nat /\
    fallback_calls evs = primary_failures evs /\
    match urls with
    | [] => True
    | _ :: _ =>
        exists n before,
          evs = before ++ [Log INFO (Summary n (length urls) file_path)] /\
          (primary_successes evs <= n <= length urls)%nat
    end.
Proof.
  intros Hread. unfold process_file. rewrite (bind_ok _ _ _ _ _ Hread).
  destruct urls as [|url rest].
  { eexists _, _. split; [reflexivity|]. by repeat split. }
  destruct (process_urls_run tbl w self (url :: rest) 0 s1)
    as (n & evs & s2 & Hrun & Htr & _ & Hu & Hsf & Hn & Hc & _).
  rewrite (bind_ok _ _ _ _ _ Hrun).
  set (final := [Log INFO (Summary n (length (url :: rest)) file_path)]).
  assert (primary_urls final = [] /\ primary_successes final = 0%nat /\
          primary_failures final = 0%nat /\ fallback_calls final = 0%nat)
    as (Hu' & Hs' & Hf' & Hc') by (by repeat split).
  eexists (evs ++ final), _.
  split; [reflexivity|]. cbn [logged trace]. rewrite Htr, <- app_assoc.
  split; [reflexivity|].
  rewrite primary_urls_app, primary_successes_app, primary_failures_app,
    fallback_calls_app, Hu, Hc, Hu', Hs', Hf', Hc', app_nil_r.
  split; [reflexivity|]. split; [lia|]. split; [lia|].
  exists n, evs. split; [reflexivity|]. lia.
Qed.

Lemma process_file_attempts_witness :
  exists evs s',
    process_file ascii_table (obliging (Lines scenario_lines None) None) agent
      urls_txt prepared = (Ok tt, s') /\
    trace s' =
      trace (logged prepared [Log WARNING (InvalidURL 2 (lit "not-a-url"));
                              Log INFO (ReadCount 1 urls_txt)]) ++ evs /\
    primary_urls evs = [example_com] /\
    (primary_successes evs + primary_failures evs = 1)%nat /\
    fallback_calls evs = primary_failures evs /\
    exists n before,
      evs = before ++ [Log INFO (Summary n 1 urls_txt)] /\
      (primary_successes evs <= n <= 1)%nat.
Proof.
  apply (process_file_attempts ascii_table (obliging (Lines scenario_lines None) None)
           agent urls_txt prepared _ [example_com]).
  reflexivity.
Defined.






(** ** More on the entry point *)

Lemma mkdir_exist_ok_run p s :
  mkdir_exist_ok p s =
    match kind (fs s) p with
    | Some Dir => (Ok tt, s)
    | Some File => (Raise (FileExistsError p), s)
    | None =>
        match kind (fs s) (parent p) with
        | Some Dir => (Ok tt, {| fs := <[p := Dir]> (fs s); trace := trace s |})
        | Some File => (Raise (NotADirectoryError p), s)
        | None => (Raise (FileNotFoundError p), s)
        end
    end.
Proof.
  unfold mkdir_exist_ok, parent_missing, bind, get_fs, raise, ret, create. cbn.
  destruct (kind (fs s) p) as [[]|]; try reflexivity.
  by destruct (kind (fs s) (parent p)) as [[]|].
Qed.

Lemma open_for_writing_run p s :
  open_for_writing p s =
    match kind (fs s) p with
    | Some Dir => (Raise (IsADirectoryError p), s)
    | Some File => (Ok tt, s)
    | None =>
        match kind (fs s) (parent p) with
        | Some Dir => (Ok tt, {| fs := <[p := File]> (fs s); trace := trace s |})
        | Some File => (Raise (NotADirectoryError p), s)
        | None => (Raise (FileNotFoundError p), s)
        end
    end.
Proof.
  unfold open_for_writing, parent_missing, bind, get_fs, raise, ret, create. cbn.
  destruct (kind (fs s) p) as [[]|]; try reflexivity.
  by destruct (kind (fs s) (parent p)) as [[]|].
Qed.

Lemma URLToPDFAgent_init_run output_dir headless s :
  URLToPDFAgent_init output_dir headless s =
    match mkdir_exist_ok output_dir s with
    | (Ok _, s1) =>
        match open_for_writing log_file s1 with
        | (Ok _, s2) => (Ok {| output_dir := output_dir; headless := headless |}, s2)
        | (Raise e, s2) => (Raise e, s2)
        | (Exit c, s2) => (Exit c, s2)
        end
    | (Raise e, s1) => (Raise e, s1)
    | (Exit c, s1) => (Exit c, s1)
    end.
Proof.
  unfold URLToPDFAgent_init, setup_logging, bind.
  by destruct (mkdir_exist_ok output_dir s) as [[[]| |] s1].
Qed.

Lemma kind_insert_eq (fs0 : filesystem) p n :
  p <> [] -> kind (<[p := n]> fs0) p = Some n.
Proof. destruct p; [done|]. intros _. cbn. by rewrite lookup_insert_eq. Qed.

Lemma kind_insert_ne (fs0 : filesystem) p q n :
  p <> q -> kind (<[q := n]> fs0) p = kind fs0 p.
Proof. destruct p; [done|]. intros H. cbn. by rewrite lookup_insert_ne. Qed.

Lemma kind_None_nonempty (fs0 : filesystem) p : kind fs0 p = None -> p <> [].
Proof. by destruct p. Qed.

(** X13: constructing the agent succeeds exactly when the output path is a
    directory, or is missing under a parent that is a directory, and the log
    file path is neither the output path nor a directory. It then returns the
    agent with the output directory and the log file in place; whether it
    succeeds or raises, it has logged and printed nothing. *)
Theorem URLToPDFAgent_init_outcome (output_dir : path) (headless : bool) (s : State) :
  let possible :=
    (is_dir (fs s) output_dir = true
     \/ (kind (fs s) output_dir = None /\ is_dir (fs s) (parent output_dir) = true))
    /\ output_dir <> log_file
    /\ is_dir (fs s) log_file = false in
  match URLToPDFAgent_init output_dir headless s with
  | (Ok self, s') =>
      possible /\
      self = {| output_dir := output_dir; headless := headless |} /\
      is_dir (fs s') output_dir = true /\
      is_file (fs s') log_file = true /\
      trace s' = trace s
  | (_, s') => ~ possible /\ trace s' = trace s
  end.
Proof.
  intros possible. unfold possible. clear possible.
  rewrite URLToPDFAgent_init_run, mkdir_exist_ok_run. unfold is_dir, is_file.
  destruct (decide (output_dir = log_file)) as [-> | Hne].
  - destruct (kind (fs s) log_file) as [[]|] eqn:Hlog.
    + rewrite open_for_writing_run, Hlog. split; [tauto | reflexivity].
    + split; [|reflexivity]. intros [[H | [H _]] _]; discriminate H.
    + change (kind (fs s) (parent log_file)) with (Some Dir). cbv beta iota.
      rewrite open_for_writing_run. cbn [fs].
      rewrite kind_insert_eq by discriminate. split; [tauto | reflexivity].
  - destruct (kind (fs s) output_dir) as [[]|] eqn:Hout.
    + rewrite open_for_writing_run.
      destruct (kind (fs s) log_file) as [[]|] eqn:Hlog.
      * split; [|reflexivity]. intros (_ & _ & H). discriminate H.
      * rewrite Hout, Hlog. repeat split; auto.
      * change (kind (fs s) (parent log_file)) with (Some Dir).
        cbv beta iota. cbn [fs trace].
        rewrite (kind_insert_ne _ _ _ _ Hne), kind_insert_eq, Hout by discriminate.
        repeat split; auto.
    + split; [|reflexivity]. intros [[H | [H _]] _]; discriminate H.
    + pose proof (kind_None_nonempty _ _ Hout) as Hnil.
      destruct (kind (fs s) (parent output_dir)) as [[]|] eqn:Hpar.
      * rewrite open_for_writing_run. cbn [fs trace].
        assert (log_file <> output_dir) as Hne' by congruence.
        rewrite (kind_insert_ne _ _ _ _ Hne').
        destruct (kind (fs s) log_file) as [[]|] eqn:Hlog.
        -- split; [|reflexivity]. intros (_ & _ & H). discriminate H.
        -- cbn [fs trace]. rewrite (kind_insert_ne _ _ _ _ Hne'), kind_insert_eq, Hlog
             by exact Hnil.
           repeat split; auto.
        -- change (kind (<[output_dir:=Dir]> (fs s)) (parent log_file))
             with (Some Dir). cbv beta iota. cbn [fs trace].
           rewrite (kind_insert_ne _ _ _ _ Hne), !kind_insert_eq
             by (exact Hnil || discriminate).
           repeat split; auto.
      * split; [|reflexivity]. intros [[H | [_ H]] _]; discriminate H.
      * split; [|reflexivity]. intros [[H | [_ H]] _]; discriminate H.
Qed.











